(** * Verification of the Xiaomi Mi Smart Pedestal Fan 1C adapter
    (custom_components/xiaomi_miio_fan/fan_1c.py).

    The adapter is embedded as follows:
    - Python values read from and written to the device are [pyval];
    - the status dictionary [data] is a [gmap string pyval];
    - the module-level dictionary [_MAPPING] is an association list kept in
      source order (the order in which it is handed to the transport);
    - methods of [Fan1C] run in a state/error monad over a [world] holding the
      device object and the log of the transport calls it made;
    - the transport (the [MiotDevice] base class of python-miio) is a pair of
      section variables: the device's answer to a batched property read and
      its answer to a single property write. *)

From Stdlib Require Import ZArith.
From stdpp Require Import base gmap strings list pretty.

Open Scope string_scope.
Open Scope Z_scope.

(* ------------------------------------------------------------------ *)
(** ** Python values *)

Inductive pyval :=
| PNone
| PBool (b : bool)
| PInt (z : Z)
| PStr (s : string).

(** Truth value of [if v] / [v and ...]. *)
Definition truthy (v : pyval) : bool :=
  match v with
  | PNone => false
  | PBool b => b
  | PInt z => negb (z =? 0)
  | PStr s => negb (String.eqb s "")
  end.

(** The integer a value stands for: [bool] is a subclass of [int] in Python,
    [True] is the integer 1 and [False] the integer 0. *)
Definition int_value (v : pyval) : option Z :=
  match v with
  | PBool b => Some (if b then 1 else 0)
  | PInt z => Some z
  | _ => None
  end.

(** Python [==] on these values. *)
Definition py_eq (a b : pyval) : bool :=
  match int_value a, int_value b with
  | Some x, Some y => x =? y
  | _, _ =>
      match a, b with
      | PNone, PNone => true
      | PStr s, PStr t => String.eqb s t
      | _, _ => false
      end
  end.

(* ------------------------------------------------------------------ *)
(** ** The property mapping table [_MAPPING] *)

Record miot_prop := { siid : Z; piid : Z }.

Definition _MAPPING : list (string * miot_prop) :=
  [ ("power",          {| siid := 2; piid := 1 |});
    ("fan_level",      {| siid := 2; piid := 2 |});
    ("child_lock",     {| siid := 3; piid := 1 |});
    ("swing_mode",     {| siid := 2; piid := 3 |});
    ("power_off_time", {| siid := 2; piid := 10 |});
    ("buzzer",         {| siid := 2; piid := 11 |});
    ("light",          {| siid := 2; piid := 12 |});
    ("mode",           {| siid := 2; piid := 7 |}) ].

(** [mapping[key]] on a dictionary given as an association list. *)
Fixpoint mapping_lookup (key : string) (m : list (string * miot_prop))
  : option miot_prop :=
  match m with
  | [] => None
  | (k, p) :: rest => if String.eqb k key then Some p else mapping_lookup key rest
  end.

(* ------------------------------------------------------------------ *)
(** ** Exceptions, outcomes, transport calls *)

Inductive exc :=
| FanException (msg : string)
| KeyError (key : string)
| TransportError (msg : string).

Inductive outcome (A : Type) :=
| Ok (a : A)
| Raise (e : exc).
Arguments Ok {A} a.
Arguments Raise {A} e.

(** One entry of the answer to a batched property read. *)
Record prop_result := {
  did : string;
  r_siid : Z;
  r_piid : Z;
  code : Z;
  value : pyval
}.

(** A call the adapter makes on its transport. *)
Inductive call :=
| GetProperties (m : list (string * miot_prop))
| SetProperty (name : string) (p : miot_prop) (v : pyval).

Definition is_write (c : call) : bool :=
  match c with SetProperty _ _ _ => true | GetProperties _ => false end.

(* ------------------------------------------------------------------ *)
(** ** The device object and the monad *)

Record Fan1C := {
  ip : option string;
  token : option string;
  start_id : Z;
  debug : Z;
  lazy_discover : bool;
  mapping : list (string * miot_prop)
}.

(** [Fan1C.__init__]: [super().__init__(_MAPPING, ip, token, ...)]. *)
Definition Fan1C_init (ip0 token0 : option string) (start_id0 debug0 : Z)
  (lazy0 : bool) : Fan1C :=
  {| ip := ip0; token := token0; start_id := start_id0; debug := debug0;
     lazy_discover := lazy0; mapping := _MAPPING |}.

Record world := { dev : Fan1C; trace : list call }.

Definition M (A : Type) : Type := world -> outcome A * world.

Definition ret {A} (a : A) : M A := fun w => (Ok a, w).
Definition raise {A} (e : exc) : M A := fun w => (Raise e, w).
Definition bind {A B} (m : M A) (k : A -> M B) : M B :=
  fun w => match m w with
           | (Ok a, w') => k a w'
           | (Raise e, w') => (Raise e, w')
           end.
Definition get_dev : M Fan1C := fun w => (Ok (dev w), w).
Definition emit (c : call) : M unit :=
  fun w => (Ok tt, {| dev := dev w; trace := trace w ++ [c] |}).
Definition lift {A} (o : outcome A) : M A := fun w => (o, w).

#[global] Instance M_ret : MRet M := fun A a => ret a.
#[global] Instance M_bind : MBind M := fun A B k m => bind m k.

(* ------------------------------------------------------------------ *)
(** ** [FanStatus1C] *)

Record FanStatus1C := { data : gmap string pyval }.

(** [self.data[key]]. *)
Definition get_item (st : FanStatus1C) (key : string) : outcome pyval :=
  match data st !! key with
  | Some v => Ok v
  | None => Raise (KeyError key)
  end.

Definition omap {A B} (f : A -> B) (o : outcome A) : outcome B :=
  match o with Ok a => Ok (f a) | Raise e => Raise e end.

(** miio.fan.OperationMode *)
Inductive OperationMode := Normal | Nature.

Definition power (st : FanStatus1C) : outcome string :=
  omap (fun v => if truthy v then "on" else "off") (get_item st "power").
Definition is_on (st : FanStatus1C) : outcome pyval := get_item st "power".
Definition mode (st : FanStatus1C) : outcome OperationMode :=
  omap (fun v => if py_eq v (PInt 1) then Nature else Normal) (get_item st "mode").
Definition speed (st : FanStatus1C) : outcome pyval := get_item st "fan_level".
Definition oscillate (st : FanStatus1C) : outcome pyval := get_item st "swing_mode".
Definition delay_off_countdown (st : FanStatus1C) : outcome pyval :=
  get_item st "power_off_time".
Definition led (st : FanStatus1C) : outcome pyval := get_item st "light".
Definition buzzer (st : FanStatus1C) : outcome pyval := get_item st "buzzer".
Definition child_lock (st : FanStatus1C) : outcome pyval := get_item st "child_lock".

(** The snapshot accessors, as one type to quantify over. *)
Inductive accessor :=
| Acc_power | Acc_is_on | Acc_mode | Acc_speed | Acc_oscillate
| Acc_delay_off_countdown | Acc_led | Acc_buzzer | Acc_child_lock.

Definition run_accessor (a : accessor) (st : FanStatus1C) : outcome unit :=
  let forget {A} (o : outcome A) := omap (fun _ => tt) o in
  match a with
  | Acc_power => forget (power st)
  | Acc_is_on => forget (is_on st)
  | Acc_mode => forget (mode st)
  | Acc_speed => forget (speed st)
  | Acc_oscillate => forget (oscillate st)
  | Acc_delay_off_countdown => forget (delay_off_countdown st)
  | Acc_led => forget (led st)
  | Acc_buzzer => forget (buzzer st)
  | Acc_child_lock => forget (child_lock st)
  end.

(* ------------------------------------------------------------------ *)
(** ** The transport and the adapter methods *)

Section Adapter.

(** The device's answer to [get_properties] for a mapping (a list of
    entries, or a transport error). *)
Variable transport_get : list (string * miot_prop) -> outcome (list prop_result).
(** The device's answer to [set_properties] for one property. *)
Variable transport_set : string -> miot_prop -> pyval -> outcome pyval.

(** [MiotDevice.get_properties_for_mapping]: one batched read of every
    entry of [self.mapping]. *)
Definition get_properties_for_mapping : M (list prop_result) :=
  d ← get_dev;
  _ ← emit (GetProperties (mapping d));
  lift (transport_get (mapping d)).

(** [MiotDevice.set_property]: resolves the name through [self.mapping]
    ([self.mapping[property_key]]) and sends one write. *)
Definition set_property (name : string) (v : pyval) : M pyval :=
  d ← get_dev;
  match mapping_lookup name (mapping d) with
  | None => raise (KeyError name)
  | Some p => _ ← emit (SetProperty name p v); lift (transport_set name p v)
  end.

(** The body of the loop of [status]:
    [data[prop["did"]] = prop["value"] if prop["code"] == 0 else None]. *)
Definition status_step (d : gmap string pyval) (prop : prop_result)
  : gmap string pyval :=
  <[did prop := if code prop =? 0 then value prop else PNone]> d.

Definition status : M FanStatus1C :=
  props ← get_properties_for_mapping;
  ret {| data := fold_left status_step props ∅ |}.

Definition on : M pyval := set_property "power" (PBool true).
Definition off : M pyval := set_property "power" (PBool false).

Definition set_direct_speed (speed : Z) : M pyval :=
  if negb (existsb (Z.eqb speed) [1; 2; 3])
  then raise (FanException ("Invalid speed: " +:+ pretty speed))
  else set_property "fan_level" (PInt speed).

Definition set_oscillate (oscillate : bool) : M pyval :=
  set_property "swing_mode" (PBool oscillate).

Definition set_buzzer (buzzer : bool) : M pyval :=
  set_property "buzzer" (PBool buzzer).

Definition set_child_lock (lock : bool) : M pyval :=
  set_property "child_lock" (PBool lock).

Definition set_natural_mode (natural : bool) : M pyval :=
  set_property "mode" (PInt (if natural then 1 else 0)).

Definition delay_off (seconds : Z) : M pyval :=
  if seconds <? 0
  then raise (FanException ("Invalid value for a delayed turn off: " +:+ pretty seconds))
  else set_property "power_off_time" (PInt seconds).

(** The setter methods, as one type to quantify over. *)
Inductive setter :=
| Op_on | Op_off
| Op_set_direct_speed (z : Z)
| Op_set_oscillate (b : bool)
| Op_set_buzzer (b : bool)
| Op_set_child_lock (b : bool)
| Op_set_natural_mode (b : bool)
| Op_delay_off (z : Z).

Definition run_setter (op : setter) : M pyval :=
  match op with
  | Op_on => on
  | Op_off => off
  | Op_set_direct_speed z => set_direct_speed z
  | Op_set_oscillate b => set_oscillate b
  | Op_set_buzzer b => set_buzzer b
  | Op_set_child_lock b => set_child_lock b
  | Op_set_natural_mode b => set_natural_mode b
  | Op_delay_off z => delay_off z
  end.

End Adapter.

(** Inputs that pass the setters' own validation. *)
Definition setter_valid (op : setter) : bool :=
  match op with
  | Op_set_direct_speed z => existsb (Z.eqb z) [1; 2; 3]
  | Op_delay_off z => 0 <=? z
  | _ => true
  end.

(* ------------------------------------------------------------------ *)
(** ** Device answers used in the statements *)

(** The answer of a device that reports every entry of [_MAPPING], in the
    mapping's order, with the status code and value given by [reply]
    (properties missing from [reply] get code -1 and no value). *)
Definition answer (reply : list (string * (Z * pyval))) : list prop_result :=
  map (fun '(k, p) =>
         let '(c, v) := default (-1, PNone) ((list_to_map reply : gmap string (Z * pyval)) !! k) in
         {| did := k; r_siid := siid p; r_piid := piid p; code := c; value := v |})
      _MAPPING.

(** The status query of the round-trip example of the spec. *)
Definition roundtrip_reply : list (string * (Z * pyval)) :=
  [ ("power", (0, PInt 1)); ("mode", (0, PInt 1)); ("fan_level", (0, PInt 2));
    ("swing_mode", (0, PInt 0)); ("power_off_time", (0, PInt 120));
    ("light", (0, PInt 1)); ("buzzer", (0, PInt 0)); ("child_lock", (0, PInt 1)) ].

(** The same query where the device failed to read [light]. *)
Definition light_failed_reply : list (string * (Z * pyval)) :=
  [ ("power", (0, PInt 1)); ("mode", (0, PInt 1)); ("fan_level", (0, PInt 2));
    ("swing_mode", (0, PInt 0)); ("power_off_time", (0, PInt 120));
    ("light", (-4001, PNone)); ("buzzer", (0, PInt 0)); ("child_lock", (0, PInt 1)) ].

(** A raw field that Python compares equal to the boolean [b]. *)
Definition reports_bool (o : outcome pyval) (b : bool) : Prop :=
  ∃ v, o = Ok v ∧ py_eq v (PBool b) = true.

Definition w0 : world := {| dev := Fan1C_init None None 0 0 true; trace := [] |}.

(* ------------------------------------------------------------------ *)
(** ** [str()] of the values, [FanStatus1C.__repr__] and the CLI output *)

(** [str(v)] (also [format(v, "")] and [%s]). *)
Definition py_str (v : pyval) : string :=
  match v with
  | PNone => "None"
  | PBool true => "True"
  | PBool false => "False"
  | PInt z => pretty z
  | PStr s => s
  end.

(** [str()] of a member of miio.fan.OperationMode (a plain [enum.Enum]). *)
Definition mode_str (m : OperationMode) : string :=
  match m with
  | Normal => "OperationMode.Normal"
  | Nature => "OperationMode.Nature"
  end.

Definition obind {A B} (o : outcome A) (k : A -> outcome B) : outcome B :=
  match o with Ok a => k a | Raise e => Raise e end.

(** [FanStatus1C.__repr__]: the tuple of the [%] is evaluated left to
    right, so the first accessor that raises decides the exception. *)
Definition FanStatus1C_repr (st : FanStatus1C) : outcome string :=
  obind (power st) (fun p =>
  obind (mode st) (fun m =>
  obind (speed st) (fun s =>
  obind (oscillate st) (fun o =>
  obind (led st) (fun l =>
  obind (buzzer st) (fun b =>
  obind (child_lock st) (fun c =>
  obind (delay_off_countdown st) (fun d =>
  Ok ("<FanStatus power=" +:+ p +:+
      ", mode=" +:+ mode_str m +:+
      ", speed=" +:+ py_str s +:+
      ", oscillate=" +:+ py_str o +:+
      ", led=" +:+ py_str l +:+
      ", buzzer=" +:+ py_str b +:+
      ", child_lock=" +:+ py_str c +:+
      ", delay_off_countdown=" +:+ py_str d +:+ ">"))))))))).

(** A format string of [str.format]: literal text and [{result.attr}]
    fields. *)
Inductive fmt_seg :=
| Lit (s : string)
| Field (attr : string).

Definition nl : string := String (Ascii.ascii_of_nat 10) EmptyString.

(** The result template of the [status] command ([default_output]). *)
Definition status_output_template : list fmt_seg :=
  [ Lit "Power: "; Field "power";
    Lit (nl +:+ "Operation mode: "); Field "mode";
    Lit (nl +:+ "Speed: "); Field "speed";
    Lit (nl +:+ "Oscillate: "); Field "oscillate";
    Lit (nl +:+ "Angle: "); Field "angle";
    Lit (nl +:+ "LED: "); Field "led";
    Lit (nl +:+ "Buzzer: "); Field "buzzer";
    Lit (nl +:+ "Child lock: "); Field "child_lock";
    Lit nl ].

(** [getattr(result, attr)] followed by [format(_, "")]: the properties of
    the class are evaluated; [data] and the underscore names exist but
    their [str()] is not modelled; every other name is missing. *)
Inductive attr_res :=
| AttrVal (o : outcome string)
| NoAttribute
| AttrNotModelled.

Definition status_attr (st : FanStatus1C) (attr : string) : attr_res :=
  if String.eqb attr "power" then AttrVal (power st)
  else if String.eqb attr "is_on" then AttrVal (omap py_str (is_on st))
  else if String.eqb attr "mode" then AttrVal (omap mode_str (mode st))
  else if String.eqb attr "speed" then AttrVal (omap py_str (speed st))
  else if String.eqb attr "oscillate" then AttrVal (omap py_str (oscillate st))
  else if String.eqb attr "delay_off_countdown" then
    AttrVal (omap py_str (delay_off_countdown st))
  else if String.eqb attr "led" then AttrVal (omap py_str (led st))
  else if String.eqb attr "buzzer" then AttrVal (omap py_str (buzzer st))
  else if String.eqb attr "child_lock" then AttrVal (omap py_str (child_lock st))
  else if String.eqb attr "data" then AttrNotModelled
  else if String.prefix "_" attr then AttrNotModelled
  else NoAttribute.

Inductive fmt_outcome :=
| FmtOk (s : string)
| FmtRaise (e : exc)
| FmtAttributeError (obj attr : string)
| FmtNotModelled.

Definition fmt_prefix (s : string) (o : fmt_outcome) : fmt_outcome :=
  match o with FmtOk t => FmtOk (s +:+ t) | _ => o end.

(** [template.format(result=st)], fields replaced left to right. *)
Fixpoint format_result (st : FanStatus1C) (segs : list fmt_seg) : fmt_outcome :=
  match segs with
  | [] => FmtOk ""
  | Lit s :: rest => fmt_prefix s (format_result st rest)
  | Field a :: rest =>
      match status_attr st a with
      | AttrVal (Ok v) => fmt_prefix v (format_result st rest)
      | AttrVal (Raise e) => FmtRaise e
      | NoAttribute => FmtAttributeError "FanStatus1C" a
      | AttrNotModelled => FmtNotModelled
      end
  end.

(** The first key of [keys] missing from the snapshot. *)
Fixpoint first_missing (st : FanStatus1C) (keys : list string) : option string :=
  match keys with
  | [] => None
  | k :: rest =>
      match data st !! k with
      | None => Some k
      | Some _ => first_missing st rest
      end
  end.

(** The value [status] stores for one entry of the answer. *)
Definition entry_value (p : prop_result) : pyval :=
  if code p =? 0 then value p else PNone.

(** The raw key each accessor reads. *)
Definition accessor_key (a : accessor) : string :=
  match a with
  | Acc_power | Acc_is_on => "power"
  | Acc_mode => "mode"
  | Acc_speed => "fan_level"
  | Acc_oscillate => "swing_mode"
  | Acc_delay_off_countdown => "power_off_time"
  | Acc_led => "light"
  | Acc_buzzer => "buzzer"
  | Acc_child_lock => "child_lock"
  end.

(* ------------------------------------------------------------------ *)
(** ** Running [set_property] *)

Definition p_power : miot_prop := {| siid := 2; piid := 1 |}.
Definition p_fan_level : miot_prop := {| siid := 2; piid := 2 |}.
Definition p_power_off_time : miot_prop := {| siid := 2; piid := 10 |}.
Definition p_mode : miot_prop := {| siid := 2; piid := 7 |}.

(** The world after one logged call. *)
Definition logged (w : world) (c : call) : world :=
  {| dev := dev w; trace := trace w ++ [c] |}.

Lemma set_property_resolved tset (w : world) name p v :
  mapping_lookup name (mapping (dev w)) = Some p →
  set_property tset name v w = (tset name p v, logged w (SetProperty name p v)).
Proof.
  intros Hl. unfold set_property, mbind, M_bind, bind, get_dev.
  rewrite Hl. reflexivity.
Qed.

Lemma set_property_unresolved tset (w : world) name v :
  mapping_lookup name (mapping (dev w)) = None →
  set_property tset name v w = (Raise (KeyError name), w).
Proof.
  intros Hl. unfold set_property, mbind, M_bind, bind, get_dev.
  rewrite Hl. reflexivity.
Qed.

Ltac resolve_in Hmap :=
  erewrite set_property_resolved; [reflexivity | rewrite Hmap; reflexivity].

(* ------------------------------------------------------------------ *)
(** ** C1: the round-trip status example *)

(** C1. When the device answers the batched read with power 1, mode 1,
    fan_level 2, swing_mode 0, power_off_time 120, light 1, buzzer 0 and
    child_lock 1, all with status code 0, [status] returns a snapshot whose
    [power] is "on", [mode] is Nature, [speed] is 2, [oscillate] is a value
    equal to False, [delay_off_countdown] is 120, [led] equal to True,
    [buzzer] equal to False and [child_lock] equal to True. *)
Theorem status_roundtrip_example tget (w : world) :
  tget (mapping (dev w)) = Ok (answer roundtrip_reply) →
  ∃ st w', status tget w = (Ok st, w') ∧
    power st = Ok "on" ∧ mode st = Ok Nature ∧ speed st = Ok (PInt 2) ∧
    reports_bool (oscillate st) false ∧
    delay_off_countdown st = Ok (PInt 120) ∧
    reports_bool (led st) true ∧ reports_bool (buzzer st) false ∧
    reports_bool (child_lock st) true.
Proof.
  intros Hget.
  unfold status, get_properties_for_mapping, mbind, M_bind, bind, get_dev,
    emit, lift, ret.
  cbn [dev trace]. rewrite Hget.
  do 2 eexists. split; [reflexivity |].
  vm_compute.
  repeat split; eexists; split; reflexivity.
Qed.

Lemma status_roundtrip_example_witness :
  ∃ st w', status (fun _ => Ok (answer roundtrip_reply)) w0 = (Ok st, w') ∧
    power st = Ok "on" ∧ mode st = Ok Nature ∧ speed st = Ok (PInt 2) ∧
    reports_bool (oscillate st) false ∧
    delay_off_countdown st = Ok (PInt 120) ∧
    reports_bool (led st) true ∧ reports_bool (buzzer st) false ∧
    reports_bool (child_lock st) true.
Proof. apply status_roundtrip_example. reflexivity. Defined.

(* ------------------------------------------------------------------ *)
(** ** C2: [set_direct_speed] *)

(** C2. With the adapter's mapping, for every integer [z]: if [z] is 1, 2
    or 3 then [set_direct_speed z] makes exactly one transport call, a write
    of [z] to [fan_level], and returns the transport's answer (it raises
    nothing of its own); otherwise it raises [FanException] (the spec's
    InvalidArgument) and makes no transport call. *)
Theorem set_direct_speed_spec tset (w : world) (z : Z) :
  mapping (dev w) = _MAPPING →
  ((z = 1 ∨ z = 2 ∨ z = 3) →
     set_direct_speed tset z w =
       (tset "fan_level" p_fan_level (PInt z),
        logged w (SetProperty "fan_level" p_fan_level (PInt z)))) ∧
  (¬ (z = 1 ∨ z = 2 ∨ z = 3) →
     set_direct_speed tset z w =
       (Raise (FanException ("Invalid speed: " +:+ pretty z)), w)).
Proof.
  intros Hmap. split.
  - intros Hz. unfold set_direct_speed.
    assert (existsb (Z.eqb z) [1; 2; 3] = true) as ->
      by (destruct Hz as [-> | [-> | ->]]; reflexivity).
    cbn [negb]. resolve_in Hmap.
  - intros Hz. unfold set_direct_speed.
    assert (existsb (Z.eqb z) [1; 2; 3] = false) as ->.
    { cbn [existsb].
      destruct (Z.eqb_spec z 1), (Z.eqb_spec z 2), (Z.eqb_spec z 3);
        try tauto; reflexivity. }
    reflexivity.
Qed.

Lemma set_direct_speed_spec_witness :
  set_direct_speed (fun _ _ _ => Ok PNone) 2 w0 =
    (Ok PNone, logged w0 (SetProperty "fan_level" p_fan_level (PInt 2))) ∧
  set_direct_speed (fun _ _ _ => Ok PNone) 4 w0 =
    (Raise (FanException ("Invalid speed: " +:+ pretty 4)), w0).
Proof.
  split.
  - apply (proj1 (set_direct_speed_spec (fun _ _ _ => Ok PNone) w0 2
                    eq_refl)). right; left; reflexivity.
  - apply (proj2 (set_direct_speed_spec (fun _ _ _ => Ok PNone) w0 4
                    eq_refl)). lia.
Defined.

(* ------------------------------------------------------------------ *)
(** ** C3: [delay_off] *)

(** C3. With the adapter's mapping, for every integer [seconds]: if
    [seconds < 0] then [delay_off seconds] raises [FanException] (the spec's
    InvalidArgument) and makes no transport call; otherwise it makes exactly
    one transport call, a write of [seconds] to [power_off_time], and
    returns the transport's answer. *)
Theorem delay_off_spec tset (w : world) (seconds : Z) :
  mapping (dev w) = _MAPPING →
  (seconds < 0 →
     delay_off tset seconds w =
       (Raise (FanException ("Invalid value for a delayed turn off: " +:+ pretty seconds)), w)) ∧
  (0 ≤ seconds →
     delay_off tset seconds w =
       (tset "power_off_time" p_power_off_time (PInt seconds),
        logged w (SetProperty "power_off_time" p_power_off_time (PInt seconds)))).
Proof.
  intros Hmap. split.
  - intros Hs. unfold delay_off.
    assert ((seconds <? 0) = true) as -> by lia. reflexivity.
  - intros Hs. unfold delay_off.
    assert ((seconds <? 0) = false) as -> by lia. resolve_in Hmap.
Qed.

Lemma delay_off_spec_witness :
  delay_off (fun _ _ _ => Ok PNone) (-1) w0 =
    (Raise (FanException ("Invalid value for a delayed turn off: " +:+ pretty (-1))), w0) ∧
  delay_off (fun _ _ _ => Ok PNone) 120 w0 =
    (Ok PNone, logged w0 (SetProperty "power_off_time" p_power_off_time (PInt 120))).
Proof.
  split.
  - apply (proj1 (delay_off_spec (fun _ _ _ => Ok PNone) w0 (-1) eq_refl)). lia.
  - apply (proj2 (delay_off_spec (fun _ _ _ => Ok PNone) w0 120 eq_refl)). lia.
Defined.

(* ------------------------------------------------------------------ *)
(** ** The status loop *)

Lemma status_fold_notin (props : list prop_result) (d : gmap string pyval) k :
  k ∉ map did props → fold_left status_step props d !! k = d !! k.
Proof.
  revert d. induction props as [| p ps IH]; intros d Hk; [done |].
  cbn [fold_left map] in *. rewrite IH by set_solver.
  unfold status_step. rewrite lookup_insert_ne; [done | set_solver].
Qed.

Lemma status_fold_in (props : list prop_result) (d : gmap string pyval) p :
  NoDup (map did props) → In p props →
  fold_left status_step props d !! did p =
    Some (if code p =? 0 then value p else PNone).
Proof.
  revert d. induction props as [| q qs IH]; intros d Hnd Hin; [done |].
  cbn [fold_left map] in *. apply NoDup_cons in Hnd as [Hq Hnd].
  destruct Hin as [<- | Hin].
  - rewrite status_fold_notin by done. unfold status_step.
    by rewrite lookup_insert_eq.
  - by apply IH.
Qed.

Lemma status_fold_some (props : list prop_result) (d : gmap string pyval) k :
  k ∈ map did props → is_Some (fold_left status_step props d !! k).
Proof.
  revert d. induction props as [| p ps IH]; intros d Hk.
  - by apply elem_of_nil in Hk.
  - cbn [fold_left map] in *.
    destruct (decide (k ∈ map did ps)) as [Hin | Hnin]; [by apply IH |].
    apply elem_of_cons in Hk as [-> | Hk]; [| done].
    rewrite status_fold_notin by done. unfold status_step.
    rewrite lookup_insert_eq. by eexists.
Qed.

Lemma status_run tget (w : world) props :
  tget (mapping (dev w)) = Ok props →
  status tget w =
    (Ok {| data := fold_left status_step props ∅ |},
     logged w (GetProperties (mapping (dev w)))).
Proof.
  intros Hget.
  unfold status, get_properties_for_mapping, mbind, M_bind, bind, get_dev,
    emit, lift, ret, logged.
  cbn [dev trace]. by rewrite Hget.
Qed.

(* ------------------------------------------------------------------ *)
(** ** C4: partial failure of the status query *)

(** C4. Whenever the transport answers the batched read (one entry per
    property name), [status] raises nothing, makes the one read, and its
    snapshot maps the name of every entry with a non-zero status code to
    [None] and the name of every entry with code 0 to the reported value;
    names the device did not report are not in the snapshot. *)
Theorem status_partial_failure tget (w : world) (props : list prop_result) :
  tget (mapping (dev w)) = Ok props →
  NoDup (map did props) →
  ∃ st, status tget w = (Ok st, logged w (GetProperties (mapping (dev w)))) ∧
    (∀ p, In p props → code p ≠ 0 → data st !! did p = Some PNone) ∧
    (∀ p, In p props → code p = 0 → data st !! did p = Some (value p)) ∧
    (∀ k, k ∉ map did props → data st !! k = None).
Proof.
  intros Hget Hnd. eexists. split; [by apply status_run |].
  cbn [data]. split; [| split].
  - intros p Hin Hc. rewrite status_fold_in by done.
    by rewrite (proj2 (Z.eqb_neq _ _) Hc).
  - intros p Hin Hc. rewrite status_fold_in by done. by rewrite Hc.
  - intros k Hk. by rewrite status_fold_notin.
Qed.

Lemma status_partial_failure_witness :
  ∃ st, status (fun _ => Ok (answer light_failed_reply)) w0 =
          (Ok st, logged w0 (GetProperties (mapping (dev w0)))) ∧
    (∀ p, In p (answer light_failed_reply) → code p ≠ 0 → data st !! did p = Some PNone) ∧
    (∀ p, In p (answer light_failed_reply) → code p = 0 → data st !! did p = Some (value p)) ∧
    (∀ k, k ∉ map did (answer light_failed_reply) → data st !! k = None).
Proof.
  apply status_partial_failure; [reflexivity |].
  apply (bool_decide_unpack _). vm_compute. reflexivity.
Defined.

(** The spec's partial-failure example: only the [light] field is [None]. *)
Example status_light_failed :
  ∃ st w', status (fun _ => Ok (answer light_failed_reply)) w0 = (Ok st, w') ∧
    led st = Ok PNone ∧ power st = Ok "on" ∧ mode st = Ok Nature ∧
    speed st = Ok (PInt 2) ∧ oscillate st = Ok (PInt 0) ∧
    delay_off_countdown st = Ok (PInt 120) ∧ buzzer st = Ok (PInt 0) ∧
    child_lock st = Ok (PInt 1).
Proof. do 2 eexists. split; [reflexivity |]. vm_compute. repeat split. Qed.

(* ------------------------------------------------------------------ *)
(** ** C5, C6: encodings of the writes *)

(** C5. With the adapter's mapping, [set_natural_mode true] makes one
    transport write of the integer 1 to [mode] and [set_natural_mode false]
    one write of the integer 0 to [mode]. *)
Theorem set_natural_mode_encoding tset (w : world) :
  mapping (dev w) = _MAPPING →
  set_natural_mode tset true w =
    (tset "mode" p_mode (PInt 1), logged w (SetProperty "mode" p_mode (PInt 1))) ∧
  set_natural_mode tset false w =
    (tset "mode" p_mode (PInt 0), logged w (SetProperty "mode" p_mode (PInt 0))).
Proof. intros Hmap. unfold set_natural_mode. split; resolve_in Hmap. Qed.

Lemma set_natural_mode_encoding_witness :
  set_natural_mode (fun _ _ _ => Ok PNone) true w0 =
    (Ok PNone, logged w0 (SetProperty "mode" p_mode (PInt 1))) ∧
  set_natural_mode (fun _ _ _ => Ok PNone) false w0 =
    (Ok PNone, logged w0 (SetProperty "mode" p_mode (PInt 0))).
Proof. apply (set_natural_mode_encoding (fun _ _ _ => Ok PNone) w0). reflexivity. Defined.

(** C6. With the adapter's mapping, [on] makes exactly one transport call,
    a write of True to [power], and [off] exactly one, a write of False to
    [power]. *)
Theorem on_off_power_write tset (w : world) :
  mapping (dev w) = _MAPPING →
  on tset w =
    (tset "power" p_power (PBool true), logged w (SetProperty "power" p_power (PBool true))) ∧
  off tset w =
    (tset "power" p_power (PBool false), logged w (SetProperty "power" p_power (PBool false))).
Proof. intros Hmap. unfold on, off. split; resolve_in Hmap. Qed.

Lemma on_off_power_write_witness :
  on (fun _ _ _ => Ok PNone) w0 =
    (Ok PNone, logged w0 (SetProperty "power" p_power (PBool true))) ∧
  off (fun _ _ _ => Ok PNone) w0 =
    (Ok PNone, logged w0 (SetProperty "power" p_power (PBool false))).
Proof. apply (on_off_power_write (fun _ _ _ => Ok PNone) w0). reflexivity. Defined.

(* ------------------------------------------------------------------ *)
(** ** C7: setters are single writes and keep no state *)

Lemma set_property_dev tset (w : world) name v :
  dev (snd (set_property tset name v w)) = dev w.
Proof.
  unfold set_property, mbind, M_bind, bind, get_dev.
  destruct (mapping_lookup name (mapping (dev w))); reflexivity.
Qed.

Lemma run_setter_dev tset (op : setter) (w : world) :
  dev (snd (run_setter tset op w)) = dev w.
Proof.
  destruct op; cbn [run_setter];
    unfold on, off, set_direct_speed, set_oscillate, set_buzzer,
      set_child_lock, set_natural_mode, delay_off;
    repeat case_match; try reflexivity; apply set_property_dev.
Qed.

(** C7. For every setter ([on], [off], [set_oscillate], [set_buzzer],
    [set_child_lock], [set_natural_mode], and [set_direct_speed] /
    [delay_off] on inputs their checks accept), run on a device built with
    the adapter's mapping, the setter appends exactly one call to the
    transport log, a write (never a read), leaves the device object
    unchanged, and its answer and its call do not depend on what was done
    before (the log of earlier calls). *)
Theorem setters_single_write_stateless tset (op : setter) (d : Fan1C) :
  mapping d = _MAPPING →
  setter_valid op = true →
  ∃ name p v,
    ∀ t : list call,
      run_setter tset op {| dev := d; trace := t |} =
        (tset name p v, {| dev := d; trace := t ++ [SetProperty name p v] |}).
Proof.
  intros Hmap Hvalid.
  destruct op; cbn [run_setter setter_valid] in *;
    unfold on, off, set_direct_speed, set_oscillate, set_buzzer,
      set_child_lock, set_natural_mode, delay_off;
    [| | rewrite Hvalid; cbn [negb] | | | | |
     assert ((z <? 0) = false) as -> by lia];
    do 3 eexists; intros t;
    (erewrite set_property_resolved;
     [reflexivity | cbn [dev]; rewrite Hmap; reflexivity]).
Qed.

Lemma setters_single_write_stateless_witness :
  ∃ name p v,
    ∀ t : list call,
      run_setter (fun _ _ _ => Ok PNone) (Op_delay_off 30)
        {| dev := Fan1C_init None None 0 0 true; trace := t |} =
        (Ok PNone, {| dev := Fan1C_init None None 0 0 true;
                      trace := t ++ [SetProperty name p v] |}).
Proof.
  apply (setters_single_write_stateless (fun _ _ _ => Ok PNone) (Op_delay_off 30)
           (Fan1C_init None None 0 0 true)); reflexivity.
Defined.

(* ------------------------------------------------------------------ *)
(** ** C8: the operation mode *)

(** C8. For every raw [mode] value [v] of a snapshot, [mode] is Nature
    exactly when [v] is the integer 1 (Python's [True] is the integer 1),
    and Normal for every other value ([None], strings, other integers). *)
Theorem mode_nature_iff_one (st : FanStatus1C) (v : pyval) :
  data st !! "mode" = Some v →
  (mode st = Ok Nature ↔ int_value v = Some 1) ∧
  (mode st = Ok Normal ↔ int_value v ≠ Some 1).
Proof.
  intros Hv. unfold mode, get_item. rewrite Hv. cbn [omap].
  destruct v as [| b | z | s]; cbn [py_eq int_value].
  - split; split; intros H; (discriminate || done).
  - destruct b; cbn; split; split; intros H; (discriminate || done).
  - destruct (Z.eqb_spec z 1) as [-> | Hz].
    + split; split; intros H; (discriminate || done).
    + split; split; intros H; try discriminate; try done.
      * injection H as ->. done.
      * intros Heq. injection Heq as ->. done.
  - split; split; intros H; (discriminate || done).
Qed.

Lemma mode_nature_iff_one_witness :
  (mode {| data := {[ "mode" := PInt 1 ]} |} = Ok Nature ↔ int_value (PInt 1) = Some 1) ∧
  (mode {| data := {[ "mode" := PInt 1 ]} |} = Ok Normal ↔ int_value (PInt 1) ≠ Some 1).
Proof. apply mode_nature_iff_one. reflexivity. Defined.

(* ------------------------------------------------------------------ *)
(** ** C9: the mapping table covers every name the adapter uses *)

(** The transport that acknowledges every write. *)
Definition ack_all : string → miot_prop → pyval → outcome pyval :=
  fun _ _ _ => Ok (PBool true).

(** C9. The keys of [_MAPPING] are distinct, so each name has one
    (siid, piid) pair; every device built by [Fan1C.__init__] carries
    [_MAPPING], and no setter changes the device object; with this mapping no
    setter ever fails to resolve its property name (no [KeyError] when the
    transport acknowledges), and no snapshot accessor fails on a key when the
    device reported every mapped property. *)
Theorem mapping_covers_adapter_names :
  NoDup (map fst _MAPPING) ∧
  (∀ ip0 token0 start0 debug0 lazy0,
      mapping (Fan1C_init ip0 token0 start0 debug0 lazy0) = _MAPPING) ∧
  (∀ tset (op : setter) (w : world), dev (snd (run_setter tset op w)) = dev w) ∧
  (∀ (op : setter) (w : world) name,
      mapping (dev w) = _MAPPING →
      fst (run_setter ack_all op w) ≠ Raise (KeyError name)) ∧
  (∀ tget (w w' : world) (props : list prop_result) st (a : accessor) name,
      mapping (dev w) = _MAPPING →
      tget _MAPPING = Ok props →
      map did props = map fst _MAPPING →
      status tget w = (Ok st, w') →
      run_accessor a st ≠ Raise (KeyError name)).
Proof.
  split; [apply (bool_decide_unpack _); vm_compute; reflexivity |].
  split; [reflexivity |].
  split; [apply run_setter_dev |].
  split.
  - intros op w name Hmap.
    destruct op; cbn [run_setter];
      unfold on, off, set_direct_speed, set_oscillate, set_buzzer,
        set_child_lock, set_natural_mode, delay_off;
      repeat case_match; try discriminate;
      (erewrite set_property_resolved;
       [discriminate | rewrite Hmap; reflexivity]).
  - intros tget w w' props st a name Hmap Hget Hdid Hst.
    rewrite <- Hmap in Hget. rewrite (status_run _ _ _ Hget) in Hst.
    injection Hst as <- _.
    assert (∀ k, k ∈ map fst _MAPPING →
                 ∃ v, get_item {| data := fold_left status_step props ∅ |} k = Ok v)
      as Hall.
    { intros k Hk. rewrite <- Hdid in Hk.
      destruct (status_fold_some props ∅ k Hk) as [v Hv].
      exists v. unfold get_item. cbn [data]. by rewrite Hv. }
    destruct a; cbn [run_accessor];
      unfold power, is_on, mode, speed, oscillate, delay_off_countdown, led,
        buzzer, child_lock;
      match goal with
      | |- context [get_item ?s ?k] =>
          destruct (Hall k) as [v ->];
          [apply (bool_decide_unpack _); vm_compute; reflexivity |]
      end; discriminate.
Qed.

Lemma mapping_covers_adapter_names_witness :
  fst (run_setter ack_all (Op_set_direct_speed 3) w0) ≠ Raise (KeyError "fan_level") ∧
  run_accessor Acc_led {| data := fold_left status_step (answer roundtrip_reply) ∅ |}
    ≠ Raise (KeyError "light").
Proof.
  split.
  - apply (proj1 (proj2 (proj2 (proj2 mapping_covers_adapter_names)))
             (Op_set_direct_speed 3) w0 "fan_level"). reflexivity.
  - apply (proj2 (proj2 (proj2 (proj2 mapping_covers_adapter_names)))
             (fun _ => Ok (answer roundtrip_reply)) w0
             (logged w0 (GetProperties _MAPPING)) (answer roundtrip_reply));
      reflexivity.
Defined.

(* ------------------------------------------------------------------ *)
(** ** C10: accessors on a [None] field *)

(** C10. Each accessor on its own key: if the snapshot holds [None] for
    [power] (the value [status] records for a failed read), [power] returns
    "off" without raising and [is_on] returns a falsy value, whatever the
    other fields hold; if it holds [None] for [mode], [mode] returns Normal
    without raising, whatever the other fields hold. *)
Theorem none_fields_defaults (st : FanStatus1C) :
  (data st !! "power" = Some PNone →
     power st = Ok "off" ∧ (∃ v, is_on st = Ok v ∧ truthy v = false)) ∧
  (data st !! "mode" = Some PNone → mode st = Ok Normal).
Proof.
  unfold power, is_on, mode, get_item. split.
  - intros Hp. rewrite Hp. split; [reflexivity | by exists PNone].
  - intros Hm. by rewrite Hm.
Qed.

(** Only [power] failed; [mode] was read as 1. *)
Definition power_failed_reply : list (string * (Z * pyval)) :=
  [ ("power", (-4001, PNone)); ("mode", (0, PInt 1)); ("fan_level", (0, PInt 2));
    ("swing_mode", (0, PInt 0)); ("power_off_time", (0, PInt 120));
    ("light", (0, PInt 1)); ("buzzer", (0, PInt 0)); ("child_lock", (0, PInt 1)) ].

(** Only [mode] failed; [power] was read as 1. *)
Definition mode_failed_reply : list (string * (Z * pyval)) :=
  [ ("power", (0, PInt 1)); ("mode", (-4001, PNone)); ("fan_level", (0, PInt 2));
    ("swing_mode", (0, PInt 0)); ("power_off_time", (0, PInt 120));
    ("light", (0, PInt 1)); ("buzzer", (0, PInt 0)); ("child_lock", (0, PInt 1)) ].

Lemma none_fields_defaults_witness :
  (let st := {| data := fold_left status_step (answer power_failed_reply) ∅ |} in
   power st = Ok "off" ∧ (∃ v, is_on st = Ok v ∧ truthy v = false)) ∧
  (let st := {| data := fold_left status_step (answer mode_failed_reply) ∅ |} in
   mode st = Ok Normal).
Proof.
  split.
  - apply (proj1 (none_fields_defaults
                    {| data := fold_left status_step (answer power_failed_reply) ∅ |})).
    reflexivity.
  - apply (proj2 (none_fields_defaults
                    {| data := fold_left status_step (answer mode_failed_reply) ∅ |})).
    reflexivity.
Defined.

(* ------------------------------------------------------------------ *)
(** ** Further properties of the adapter *)

Ltac destruct_lookups :=
  repeat match goal with
         | |- context [data ?st !! ?k] => destruct (data st !! k)
         end.

(** A failed batched read: [status] raises the transport's exception
    unchanged, after the one read, and builds no snapshot. *)
Theorem status_transport_error tget (w : world) (e : exc) :
  tget (mapping (dev w)) = Raise e →
  status tget w = (Raise e, logged w (GetProperties (mapping (dev w)))).
Proof.
  intros Hget.
  unfold status, get_properties_for_mapping, mbind, M_bind, bind, get_dev,
    emit, lift, ret, logged.
  cbn [dev trace]. by rewrite Hget.
Qed.

Lemma status_transport_error_witness :
  status (fun _ => Raise (TransportError "timeout")) w0 =
    (Raise (TransportError "timeout"), logged w0 (GetProperties (mapping (dev w0)))).
Proof. apply status_transport_error. reflexivity. Defined.

Lemma status_fold_last (props : list prop_result) (d : gmap string pyval) k :
  fold_left status_step props d !! k =
    match List.find (fun p => String.eqb (did p) k) (rev props) with
    | Some p => Some (entry_value p)
    | None => d !! k
    end.
Proof.
  induction props as [| p ps IH] using rev_ind; [done |].
  rewrite fold_left_app, rev_app_distr. cbn [fold_left rev app List.find].
  unfold status_step at 1.
  destruct (String.eqb_spec (did p) k) as [<- | Hne].
  - by rewrite lookup_insert_eq.
  - rewrite lookup_insert_ne by done. exact IH.
Qed.

(** Whatever the answer, the snapshot holds, under each name, the value
    of the LAST entry reported for that name (a later entry overwrites an
    earlier one), and nothing for a name never reported. *)
Theorem status_last_entry_wins tget (w : world) (props : list prop_result) k :
  tget (mapping (dev w)) = Ok props →
  ∃ st, status tget w = (Ok st, logged w (GetProperties (mapping (dev w)))) ∧
    data st !! k =
      entry_value <$> List.find (fun p => String.eqb (did p) k) (rev props).
Proof.
  intros Hget. eexists. split; [by apply status_run |].
  cbn [data]. rewrite status_fold_last.
  by destruct (List.find _ _).
Qed.

Lemma status_last_entry_wins_witness :
  ∃ st, status (fun _ => Ok [ {| did := "power"; r_siid := 2; r_piid := 1; code := 0; value := PInt 1 |};
                              {| did := "power"; r_siid := 2; r_piid := 1; code := -1; value := PInt 1 |} ]) w0 =
          (Ok st, logged w0 (GetProperties (mapping (dev w0)))) ∧
    data st !! "power" =
      entry_value <$> List.find (fun p => String.eqb (did p) "power")
        (rev [ {| did := "power"; r_siid := 2; r_piid := 1; code := 0; value := PInt 1 |};
               {| did := "power"; r_siid := 2; r_piid := 1; code := -1; value := PInt 1 |} ]).
Proof. apply status_last_entry_wins. reflexivity. Defined.

Lemma run_accessor_lookup (a : accessor) (st : FanStatus1C) :
  run_accessor a st =
    match data st !! accessor_key a with
    | Some _ => Ok tt
    | None => Raise (KeyError (accessor_key a))
    end.
Proof.
  destruct a; cbn [run_accessor accessor_key];
    unfold power, is_on, mode, speed, oscillate, delay_off_countdown, led,
      buzzer, child_lock, get_item;
    destruct_lookups; reflexivity.
Qed.

(** On a snapshot built by [status], an accessor succeeds exactly when
    the device reported the key it reads, and otherwise raises [KeyError]
    for that key. *)
Theorem status_accessor_keyerror tget (w w' : world) (props : list prop_result)
    (st : FanStatus1C) (a : accessor) :
  tget (mapping (dev w)) = Ok props →
  status tget w = (Ok st, w') →
  (run_accessor a st = Ok tt ↔ accessor_key a ∈ map did props) ∧
  (run_accessor a st = Raise (KeyError (accessor_key a)) ↔
     accessor_key a ∉ map did props).
Proof.
  intros Hget Hst. rewrite (status_run _ _ _ Hget) in Hst.
  injection Hst as <- _. rewrite run_accessor_lookup. cbn [data].
  destruct (decide (accessor_key a ∈ map did props)) as [Hin | Hnin].
  - destruct (status_fold_some props ∅ _ Hin) as [v ->].
    split; split; intros H; done.
  - rewrite status_fold_notin by done. rewrite lookup_empty.
    split; split; intros H; done.
Qed.

Lemma status_accessor_keyerror_witness :
  let props := answer roundtrip_reply in
  let st := {| data := fold_left status_step props ∅ |} in
  (run_accessor Acc_led st = Ok tt ↔ accessor_key Acc_led ∈ map did props) ∧
  (run_accessor Acc_led st = Raise (KeyError (accessor_key Acc_led)) ↔
     accessor_key Acc_led ∉ map did props).
Proof.
  apply (status_accessor_keyerror (fun _ => Ok (answer roundtrip_reply)) w0
           (logged w0 (GetProperties (mapping (dev w0))))); reflexivity.
Defined.

(** [power] and [is_on] read the same raw value: [power] is "on" exactly
    when [is_on] returns a truthy value, "off" exactly when it returns a
    falsy one, and both raise the same exception when [power] is missing. *)
Theorem power_agrees_with_is_on (st : FanStatus1C) :
  (power st = Ok "on" ↔ ∃ v, is_on st = Ok v ∧ truthy v = true) ∧
  (power st = Ok "off" ↔ ∃ v, is_on st = Ok v ∧ truthy v = false) ∧
  (∀ e, power st = Raise e ↔ is_on st = Raise e).
Proof.
  unfold power, is_on, get_item.
  destruct (data st !! "power") as [v |]; cbn [omap].
  - destruct (truthy v) eqn:Ht; (split; [| split]); try (intros e; split; discriminate);
      split; intros H;
      first [ discriminate
            | (exists v; split; [reflexivity | exact Ht])
            | reflexivity
            | (destruct H as (v' & Hv & Hf); injection Hv as <-; congruence) ].
  - split; [| split].
    + split; [discriminate | intros (v' & Hv & _); discriminate].
    + split; [discriminate | intros (v' & Hv & _); discriminate].
    + intros e. split; intros H; injection H as <-; reflexivity.
Qed.

(** [set_oscillate], [set_buzzer] and [set_child_lock] each make one
    transport write of their boolean argument, to [swing_mode] (siid 2,
    piid 3), [buzzer] (2, 11) and [child_lock] (3, 1) respectively, and
    return the transport's answer. *)
Theorem bool_setters_write tset (w : world) (b : bool) :
  mapping (dev w) = _MAPPING →
  set_oscillate tset b w =
    (tset "swing_mode" {| siid := 2; piid := 3 |} (PBool b),
     logged w (SetProperty "swing_mode" {| siid := 2; piid := 3 |} (PBool b))) ∧
  set_buzzer tset b w =
    (tset "buzzer" {| siid := 2; piid := 11 |} (PBool b),
     logged w (SetProperty "buzzer" {| siid := 2; piid := 11 |} (PBool b))) ∧
  set_child_lock tset b w =
    (tset "child_lock" {| siid := 3; piid := 1 |} (PBool b),
     logged w (SetProperty "child_lock" {| siid := 3; piid := 1 |} (PBool b))).
Proof.
  intros Hmap. unfold set_oscillate, set_buzzer, set_child_lock.
  split; [| split]; resolve_in Hmap.
Qed.

Lemma bool_setters_write_witness :
  set_oscillate ack_all false w0 =
    (Ok (PBool true),
     logged w0 (SetProperty "swing_mode" {| siid := 2; piid := 3 |} (PBool false))) ∧
  set_buzzer ack_all false w0 =
    (Ok (PBool true),
     logged w0 (SetProperty "buzzer" {| siid := 2; piid := 11 |} (PBool false))) ∧
  set_child_lock ack_all false w0 =
    (Ok (PBool true),
     logged w0 (SetProperty "child_lock" {| siid := 3; piid := 1 |} (PBool false))).
Proof. apply (bool_setters_write ack_all w0 false). reflexivity. Defined.

Lemma logged_single (w : world) (c c' : call) :
  trace (logged w c) = (trace w ++ [c'])%list → c = c'.
Proof. cbn [logged trace]. intros H. by apply app_inj_tail in H as [_ ->]. Qed.

(** Round trip of the natural mode: when a snapshot holds, under the
    property [set_natural_mode b] wrote, the value it wrote, [mode] reads
    back Nature for [b = true] and Normal for [b = false]. *)
Theorem natural_mode_roundtrip tset (w : world) (b : bool) (st : FanStatus1C)
    name p v :
  mapping (dev w) = _MAPPING →
  trace (snd (set_natural_mode tset b w)) = (trace w ++ [SetProperty name p v])%list →
  data st !! name = Some v →
  mode st = Ok (if b then Nature else Normal).
Proof.
  intros Hmap Htr Hv. unfold set_natural_mode in Htr.
  erewrite set_property_resolved in Htr by (rewrite Hmap; reflexivity).
  apply logged_single in Htr. injection Htr as <- <- <-.
  unfold mode, get_item. rewrite Hv. by destruct b.
Qed.

Lemma natural_mode_roundtrip_witness :
  mode {| data := {[ "mode" := PInt 1 ]} |} = Ok Nature.
Proof.
  apply (natural_mode_roundtrip ack_all w0 true _ "mode" p_mode (PInt 1));
    reflexivity.
Defined.

(** Round trip of the power switch: when a snapshot holds, under the
    property [on] (for [b = true]) or [off] (for [b = false]) wrote, the
    value it wrote, [power] reads back "on" / "off" and [is_on] the boolean
    [b]. *)
Theorem power_roundtrip tset (w : world) (b : bool) (st : FanStatus1C) name p v :
  mapping (dev w) = _MAPPING →
  trace (snd ((if b then on else off) tset w)) = (trace w ++ [SetProperty name p v])%list →
  data st !! name = Some v →
  power st = Ok (if b then "on" else "off") ∧ is_on st = Ok (PBool b).
Proof.
  intros Hmap Htr Hv.
  assert ((if b then on else off) tset w =
            set_property tset "power" (PBool b) w) as Hsp by (by destruct b).
  rewrite Hsp in Htr.
  erewrite set_property_resolved in Htr by (rewrite Hmap; reflexivity).
  apply logged_single in Htr. injection Htr as <- <- <-.
  unfold power, is_on, get_item. rewrite Hv. by destruct b.
Qed.

Lemma power_roundtrip_witness :
  power {| data := {[ "power" := PBool false ]} |} = Ok "off" ∧
  is_on {| data := {[ "power" := PBool false ]} |} = Ok (PBool false).
Proof.
  apply (power_roundtrip ack_all w0 false _ "power" p_power (PBool false));
    reflexivity.
Defined.

(** [__repr__] raises [KeyError] for the first key, in the order of its
    fields (power, mode, fan_level, swing_mode, light, buzzer, child_lock,
    power_off_time), that the snapshot lacks, and returns a string when
    none is missing. *)
Theorem repr_first_missing_key (st : FanStatus1C) :
  (∀ k, first_missing st ["power"; "mode"; "fan_level"; "swing_mode"; "light";
                          "buzzer"; "child_lock"; "power_off_time"] = Some k →
        FanStatus1C_repr st = Raise (KeyError k)) ∧
  (first_missing st ["power"; "mode"; "fan_level"; "swing_mode"; "light";
                     "buzzer"; "child_lock"; "power_off_time"] = None →
   ∃ s, FanStatus1C_repr st = Ok s).
Proof.
  unfold FanStatus1C_repr, power, mode, speed, oscillate, led, buzzer,
    child_lock, delay_off_countdown, get_item.
  cbn [first_missing].
  destruct_lookups; cbn [omap obind];
    split; intros; (congruence || by eexists).
Qed.

Lemma repr_first_missing_key_witness :
  FanStatus1C_repr {| data := {[ "power" := PInt 1 ]} |} = Raise (KeyError "mode").
Proof.
  apply (proj1 (repr_first_missing_key {| data := {[ "power" := PInt 1 ]} |})).
  reflexivity.
Defined.

(** The result template of the [status] command never formats: it reads
    [result.angle], which [FanStatus1C] does not have. The fields before it
    are evaluated first, so a snapshot lacking power, mode, fan_level or
    swing_mode raises [KeyError] for the first of them; otherwise the output
    raises [AttributeError] for [angle]. *)
Theorem status_output_never_formats (st : FanStatus1C) :
  (∀ s, format_result st status_output_template ≠ FmtOk s) ∧
  (∀ k, first_missing st ["power"; "mode"; "fan_level"; "swing_mode"] = Some k →
        format_result st status_output_template = FmtRaise (KeyError k)) ∧
  (first_missing st ["power"; "mode"; "fan_level"; "swing_mode"] = None →
   format_result st status_output_template = FmtAttributeError "FanStatus1C" "angle").
Proof.
  unfold status_output_template. cbn [format_result].
  unfold status_attr. cbn [String.eqb Ascii.eqb Bool.eqb andb String.prefix].
  unfold power, mode, speed, oscillate, get_item. cbn [first_missing].
  destruct_lookups; cbn [omap fmt_prefix];
    (split; [| split]); intros; (congruence || discriminate || reflexivity).
Qed.

Lemma status_output_never_formats_witness :
  format_result {| data := fold_left status_step (answer roundtrip_reply) ∅ |}
    status_output_template = FmtAttributeError "FanStatus1C" "angle".
Proof.
  apply (proj2 (proj2 (status_output_never_formats
                         {| data := fold_left status_step (answer roundtrip_reply) ∅ |}))).
  reflexivity.
Defined.
